(** * Palindrome checker

    A shallow embedding of [strands_multi_agent_example/palindrome_checker.py]
    and the properties its specification states about it.

    A Python [str] is a finite sequence of Unicode code points; it is modelled
    as a [list Z].  The two built-ins the checker calls on one-character
    strings, [str.isalnum] and [str.lower], belong to the host and not to the
    repository: they are the two fields of a [CharTable].  [str.lower] returns
    a string, which need not have length one, hence [lower : Z -> list Z]. *)

From Stdlib Require Import ZArith List Ascii String Lia ZifyBool.
From stdpp Require Import base decidable numbers list gmap pretty.

Local Open Scope Z_scope.

(** ** Character tables *)

Class CharTable : Type := {
  isalnum : Z -> bool;      (* [char.isalnum()] *)
  lower : Z -> list Z       (* [char.lower()]   *)
}.

(** The code points of a literal all of whose characters are ASCII. *)
Definition codepoints (s : string) : list Z :=
  map (fun a => Z.of_N (N_of_ascii a)) (list_ascii_of_string s).

Definition in_range (lo hi c : Z) : bool := (lo <=? c) && (c <=? hi).

Definition is_digit (c : Z) : bool := in_range 48 57 c.
Definition is_upper_letter (c : Z) : bool := in_range 65 90 c.
Definition is_lower_letter (c : Z) : bool := in_range 97 122 c.

(** The rows of the host's table for Basic Latin, U+0000..U+007F: the
    alphanumerics are [0-9A-Za-z], and lower-casing adds 32 to [A-Z]. *)
Definition ascii_isalnum (c : Z) : bool :=
  is_digit c || is_upper_letter c || is_lower_letter c.

Definition ascii_lower (c : Z) : list Z :=
  if is_upper_letter c then [c + 32] else [c].

(** [str.isspace] and [string.punctuation] on Basic Latin. *)
Definition ascii_isspace (c : Z) : bool := in_range 9 13 c || in_range 28 32 c.

Definition ascii_ispunct (c : Z) : bool :=
  in_range 33 47 c || in_range 58 64 c || in_range 91 96 c || in_range 123 126 c.

Definition basic_latin : CharTable :=
  {| isalnum := ascii_isalnum; lower := ascii_lower |}.

(** Basic Latin together with two further rows of the host's table:
    U+0130 (capital I with dot above) is a letter whose lower case is the
    two code points U+0069 U+0307, and U+0307 (combining dot above) is a
    mark, not alphanumeric, which lower-casing leaves as it is.  No other
    code point outside Basic Latin is looked up in this table below. *)
Definition dotted_latin : CharTable :=
  {| isalnum := fun c => ascii_isalnum c || (c =? 304);
     lower := fun c => if c =? 304 then [105; 775] else ascii_lower c |}.

(** A table has the Basic Latin rows of the host's table. *)
Definition AsciiRows (T : CharTable) : Prop :=
  forall c, 0 <= c < 128 ->
    isalnum c = ascii_isalnum c /\ lower c = ascii_lower c.

Definition is_ascii (text : list Z) : Prop :=
  Forall (fun c => 0 <= c < 128) text.

(** ** The checker *)

Section Checker.
Context {T : CharTable}.

(** Line 36:
    [cleaned = ''.join(char.lower() for char in text if char.isalnum())].
    The generator walks [text] from its first character to its last. *)
Fixpoint cleaned (text : list Z) : list Z :=
  match text with
  | [] => []
  | char :: rest =>
      if isalnum char then lower char ++ cleaned rest else cleaned rest
  end.

(** Lines 12-39: [return cleaned == cleaned[::-1]]. *)
Definition is_palindrome (text : list Z) : bool :=
  let cleaned := cleaned text in
  bool_decide (cleaned = reverse cleaned).

(** The specification's [normalize], in its own words: keep the
    alphanumeric characters, lower-case each of them, in order. *)
Definition normalize (text : list Z) : list Z :=
  concat (map lower (List.filter isalnum text)).
End Checker.

(** Lines 42-63: [return text == text[::-1]]. *)
Definition is_palindrome_simple (text : list Z) : bool :=
  bool_decide (text = reverse text).

(** The specification's [is_symmetric], in its own words: the element at
    every position [i] equals the element at position [len - 1 - i]. *)
Definition is_symmetric (s : list Z) : bool :=
  forallb (fun i => bool_decide (s !! i = s !! (length s - 1 - i)%nat))
          (seq 0 (length s)).

(** A character whose lower case is made of alphanumeric characters that
    lower-casing leaves as they are. *)
Definition lower_stable {T : CharTable} (c : Z) : Prop :=
  Forall (fun d => isalnum d = true /\ lower d = [d]) (lower c).

(** ** The demonstration, lines 66-96 *)

(** [str(b)] of a [bool], as an f-string writes it. *)
Definition str_of_bool (b : bool) : list Z :=
  codepoints (if b then "True" else "False").

(** Lines 70-79. *)
Definition test_cases : list (list Z) :=
  map codepoints
    [ "racecar"; "A man a plan a canal Panama"; "race a car"; "Madam";
      "Was it a car or a cat I saw?"; "hello world"; "12321"; "12345" ]%string.

(** Lines 85-96, one pass of the loop: the arguments of its [print] calls,
    in order.  The cleaned version is computed again, by the expression of
    line 36, and shown only when the check succeeded. *)
Definition demonstrate_case {T : CharTable} (test : list Z)
  : list (list Z) :=
  let result := is_palindrome test in
  let simple_result := is_palindrome_simple test in
  [ codepoints "Text: '" ++ test ++ codepoints "'";
    codepoints "  Advanced check (ignoring case/punctuation): "
      ++ str_of_bool result;
    codepoints "  Simple check (exact matching): "
      ++ str_of_bool simple_result ]
  ++ (if result
      then [ codepoints "  Cleaned version: '" ++ cleaned test
               ++ codepoints "'" ]
      else [])
  ++ [ replicate 30 45 ].

(** Lines 84-96, the loop over the cases. *)
Definition demonstrate_loop {T : CharTable} (cases : list (list Z))
  : list (list Z) :=
  concat (map demonstrate_case cases).

(** Lines 66-96: everything [demonstrate_palindromes] prints. *)
Definition demonstrate_palindromes {T : CharTable} : list (list Z) :=
  [ codepoints "Palindrome Analysis Results:"; replicate 50 61 ]
  ++ demonstrate_loop test_cases.

(** Two characters the checker cannot tell apart. *)
Definition same_class {T : CharTable} (c d : Z) : Prop :=
  isalnum c = isalnum d /\ lower c = lower d.

(** The other case of a Basic Latin letter; any other character is left
    as it is ([str.swapcase] on ASCII). *)
Definition ascii_swapcase (c : Z) : Z :=
  if is_upper_letter c then c + 32
  else if is_lower_letter c then c - 32
  else c.

(** ** The character counting tool, [tools/count_chars.py] *)

(** The values of a decoded JSON document, which is what a tool use and
    its [input] are made of.  A dictionary has string keys; a float is kept
    as its binary64 bit pattern. *)
#[warnings="-register-all"]
Inductive pyval : Type :=
| PNone
| PBool (b : bool)
| PInt (n : Z)
| PFloat (bits : Z)
| PStr (s : list Z)
| PList (l : list pyval)
| PDict (d : gmap (list Z) pyval).

(** The two exceptions subscripting and [len] raise on such values. *)
Inductive exn : Type :=
| KeyError (key : list Z)
| TypeError.

Definition result (A : Type) : Type := (exn + A)%type.

Definition bind {A B : Type} (m : result A) (k : A -> result B) : result B :=
  match m with
  | inl e => inl e
  | inr a => k a
  end.

Notation "'let!' x ':=' m 'in' k" := (bind m (fun x => k))
  (at level 10, x name, m at level 100, k at level 200).

(** [obj[key]] for a string [key]: a dictionary looks the key up and raises
    [KeyError] when it is absent; a string or a list takes no string index,
    and the other values are not subscriptable. *)
Definition getitem (obj : pyval) (key : list Z) : result pyval :=
  match obj with
  | PDict d =>
      match d !! key with
      | Some v => inr v
      | None => inl (KeyError key)
      end
  | _ => inl TypeError
  end.

(** [len(obj)]. *)
Definition len (obj : pyval) : result nat :=
  match obj with
  | PStr s => inr (length s)
  | PList l => inr (length l)
  | PDict d => inr (size d)
  | _ => inl TypeError
  end.

(** [str(n)] of a count, as an f-string writes it. *)
Definition str_of_nat (n : nat) : list Z := codepoints (pretty n).

(** Lines 36-40, the dictionary that is returned. *)
Definition tool_result (tool_use_id : pyval) (char_count : nat) : pyval :=
  PDict
    (<[codepoints "toolUseId" := tool_use_id]>
       (<[codepoints "status" := PStr (codepoints "success")]>
          (<[codepoints "content" :=
               PList [ PDict {[ codepoints "text" :=
                         PStr (codepoints "Character count: "
                                 ++ str_of_nat char_count) ]} ]]>
             ∅))).

(** Lines 21-40.  The keyword arguments are not used. *)
Definition count_chars (tool_use : pyval) : result pyval :=
  let! tool_use_id := getitem tool_use (codepoints "toolUseId") in
  let! input := getitem tool_use (codepoints "input") in
  let! text := getitem input (codepoints "text") in
  let! char_count := len text in
  inr (tool_result tool_use_id char_count).

(** The [inputSchema] of [TOOL_SPEC], lines 7-18: an object whose required
    property [text] is a string. *)
Definition meets_input_schema (input : pyval) : Prop :=
  exists d s, input = PDict d /\ d !! codepoints "text" = Some (PStr s).

(** ** The CSV summary, [samples/csv_analyzer.py] *)


Section CsvAnalyzer.
(** What the summary asks of pandas, which is not part of the repository:
    reading the file, which may raise; the number of rows, the column
    labels, and the label and printed dtype of each column of the frame
    read; and the printed [describe(include='all')], which may raise. *)
Context {frame error : Type}.
Variable read_csv : list Z -> error + frame.
Variable rows : frame -> nat.
Variable columns : frame -> list (list Z).
Variable dtypes : frame -> list (list Z * list Z).
Variable describe : frame -> error + list Z.

End CsvAnalyzer.

(** ** The scenarios of the specification *)

Example racecar :
  @is_palindrome basic_latin (codepoints "racecar") = true
  /\ is_palindrome_simple (codepoints "racecar") = true.
Proof. split; reflexivity. Qed.

Example panama :
  @is_palindrome basic_latin (codepoints "A man a plan a canal Panama") = true
  /\ is_palindrome_simple (codepoints "A man a plan a canal Panama") = false.
Proof. split; reflexivity. Qed.

Example race_a_car :
  @is_palindrome basic_latin (codepoints "race a car") = false.
Proof. reflexivity. Qed.

Example racecar_capitalized :
  @is_palindrome basic_latin (codepoints "Racecar") = true
  /\ is_palindrome_simple (codepoints "Racecar") = false.
Proof. split; reflexivity. Qed.

Example digits_12321 :
  @is_palindrome basic_latin (codepoints "12321") = true
  /\ is_palindrome_simple (codepoints "12321") = true.
Proof. split; reflexivity. Qed.

Example dotted_capital_I :
  @cleaned dotted_latin [304] = [105; 775]
  /\ @is_palindrome dotted_latin [304] = false
  /\ is_palindrome_simple [304] = true.
Proof. repeat split; reflexivity. Qed.

(** ** Reversal and positions *)

Section Symmetry.
Implicit Types s text : list Z.

Lemma is_palindrome_simple_true text :
  is_palindrome_simple text = true <-> text = reverse text.
Proof. unfold is_palindrome_simple. apply bool_decide_eq_true. Qed.

(** Position [i] of the reversed string is position [len - 1 - i]. *)
Lemma reverse_mirror s i :
  (i < length s)%nat -> reverse s !! i = s !! (length s - 1 - i)%nat.
Proof.
  intros Hi. rewrite reverse_lookup by exact Hi.
  f_equal. lia.
Qed.

Lemma mirror_positions s :
  s = reverse s <->
  forall i, (i < length s)%nat -> s !! i = s !! (length s - 1 - i)%nat.
Proof.
  split.
  - intros Hs i Hi. rewrite <- reverse_mirror by exact Hi. now rewrite <- Hs.
  - intros Hpos. apply list_eq. intros i.
    destruct (decide (i < length s)%nat) as [Hi|Hi].
    + rewrite reverse_mirror by exact Hi. now apply Hpos.
    + rewrite !lookup_ge_None_2; [reflexivity | rewrite length_reverse; lia | lia].
Qed.

Lemma is_symmetric_true s :
  is_symmetric s = true <->
  forall i, (i < length s)%nat -> s !! i = s !! (length s - 1 - i)%nat.
Proof.
  unfold is_symmetric. rewrite forallb_forall. split.
  - intros Hall i Hi. eapply bool_decide_eq_true_1, Hall, in_seq. lia.
  - intros Hpos i Hin. apply in_seq in Hin.
    apply bool_decide_eq_true_2, Hpos. lia.
Qed.

Lemma is_palindrome_simple_symmetric s :
  is_palindrome_simple s = is_symmetric s.
Proof.
  apply eq_true_iff_eq.
  now rewrite is_palindrome_simple_true, mirror_positions, is_symmetric_true.
Qed.
End Symmetry.

(** ** The cleaning pass *)

Section Cleaning.
Context {T : CharTable}.
Implicit Types text u v : list Z.

Lemma cleaned_app u v : cleaned (u ++ v) = cleaned u ++ cleaned v.
Proof.
  induction u as [|c u IH]; simpl; [reflexivity|].
  destruct (isalnum c); [|exact IH].
  now rewrite IH, app_assoc.
Qed.

Lemma cleaned_normalize text : cleaned text = normalize text.
Proof.
  unfold normalize.
  induction text as [|c text IH]; simpl; [reflexivity|].
  destruct (isalnum c); simpl; now rewrite IH.
Qed.

Lemma is_palindrome_true text :
  is_palindrome text = true <-> cleaned text = reverse (cleaned text).
Proof. unfold is_palindrome. apply bool_decide_eq_true. Qed.

Lemma is_palindrome_cleaned text :
  is_palindrome text = is_palindrome_simple (cleaned text).
Proof. reflexivity. Qed.

(** A string without alphanumeric characters is cleaned to nothing. *)
Lemma cleaned_nil text :
  Forall (fun c => isalnum c = false) text -> cleaned text = [].
Proof.
  induction 1 as [|c text Hc _ IH]; simpl; [reflexivity|].
  now rewrite Hc.
Qed.

(** Cleaning changes nothing in a string of alphanumeric characters that
    are their own lower case. *)
Lemma cleaned_fixed text :
  Forall (fun d => isalnum d = true /\ lower d = [d]) text ->
  cleaned text = text.
Proof.
  induction 1 as [|d text [Hd Hl] _ IH]; simpl; [reflexivity|].
  now rewrite Hd, Hl, IH.
Qed.

Lemma cleaned_twice text :
  Forall (fun c => isalnum c = true -> lower_stable c) text ->
  cleaned (cleaned text) = cleaned text.
Proof.
  induction 1 as [|c text Hc _ IH]; simpl; [reflexivity|].
  destruct (isalnum c) eqn:Ec; [|exact IH].
  rewrite cleaned_app, IH. f_equal.
  apply cleaned_fixed, Hc. reflexivity.
Qed.

(** Where each kept character has a lower case of at most one character,
    cleaning commutes with reversal. *)
Lemma cleaned_reverse text :
  Forall (fun c => isalnum c = true -> (length (lower c) <= 1)%nat) text ->
  cleaned (reverse text) = reverse (cleaned text).
Proof.
  induction 1 as [|c text Hc _ IH]; simpl; [reflexivity|].
  rewrite reverse_cons, cleaned_app, IH. simpl.
  destruct (isalnum c) eqn:Ec.
  - rewrite reverse_app, app_nil_r. f_equal.
    specialize (Hc eq_refl).
    destruct (lower c) as [|d [|e l]]; simpl in Hc; [reflexivity..|lia].
  - now rewrite app_nil_r.
Qed.
End Cleaning.

(** ** Basic Latin *)

Ltac ascii_ranges :=
  unfold is_digit, is_upper_letter, is_lower_letter, ascii_isspace,
    ascii_ispunct, in_range in *.

Section BasicLatin.
Context {T : CharTable} (HT : AsciiRows T).

(** The lower case of a Basic Latin alphanumeric is one of [0-9a-z]. *)
Lemma ascii_lower_class c :
  0 <= c < 128 -> isalnum c = true ->
  Forall (fun d => 0 <= d < 128 /\ is_digit d || is_lower_letter d = true)
         (lower c).
Proof.
  intros Hc Hal. destruct (HT c Hc) as [Ea El]. rewrite El.
  rewrite Ea in Hal. revert Hal.
  unfold ascii_lower, ascii_isalnum. ascii_ranges.
  intros Hal.
  destruct ((65 <=? c) && (c <=? 90)) eqn:Eu; repeat constructor; lia.
Qed.

(** Such a character is alphanumeric and is its own lower case. *)
Lemma ascii_lower_fixed d :
  0 <= d < 128 -> is_digit d || is_lower_letter d = true ->
  isalnum d = true /\ lower d = [d].
Proof.
  intros Hd Hcl. destruct (HT d Hd) as [Ea El]. rewrite Ea, El.
  revert Hcl. unfold ascii_lower, ascii_isalnum. ascii_ranges.
  intros Hcl. split; [lia|].
  destruct ((65 <=? d) && (d <=? 90)) eqn:Eu; [lia|reflexivity].
Qed.

Lemma ascii_lower_stable c :
  0 <= c < 128 -> isalnum c = true -> lower_stable c.
Proof.
  intros Hc Hal. unfold lower_stable.
  eapply Forall_impl; [apply ascii_lower_class; assumption|].
  intros d [Hd Hcl]. now apply ascii_lower_fixed.
Qed.

Lemma ascii_lower_single c : 0 <= c < 128 -> length (lower c) = 1%nat.
Proof.
  intros Hc. destruct (HT c Hc) as [_ El]. rewrite El.
  unfold ascii_lower. now destruct (is_upper_letter c).
Qed.
End BasicLatin.

Lemma basic_latin_rows : AsciiRows basic_latin.
Proof. intros c _. split; reflexivity. Qed.

Lemma dotted_latin_rows : AsciiRows dotted_latin.
Proof.
  intros c Hc. simpl.
  replace (c =? 304) with false by lia.
  now rewrite orb_false_r.
Qed.

(** ** The two entry points *)

(** C1. For every string, [is_palindrome] answers true exactly when the
    normalized sequence (alphanumerics kept, each lower-cased) equals its
    own reverse: it is [is_symmetric] after [normalize]. *)
Theorem is_palindrome_normalized {T : CharTable} (text : list Z) :
  (is_palindrome text = true <-> normalize text = reverse (normalize text))
  /\ is_palindrome text = is_symmetric (normalize text).
Proof.
  rewrite <- cleaned_normalize. split.
  - apply is_palindrome_true.
  - rewrite is_palindrome_cleaned. apply is_palindrome_simple_symmetric.
Qed.

(** C2. For every string, [is_palindrome_simple] normalizes nothing and
    answers true exactly when the text equals its own reverse, that is when
    the element at every position [i] is the element at [len - 1 - i]. *)
Theorem is_palindrome_simple_exact (text : list Z) :
  (is_palindrome_simple text = true <-> text = reverse text)
  /\ (is_palindrome_simple text = true <->
      forall i, (i < length text)%nat ->
        text !! i = text !! (length text - 1 - i)%nat)
  /\ is_palindrome_simple text = is_symmetric text.
Proof.
  split; [apply is_palindrome_simple_true|]. split.
  - rewrite is_palindrome_simple_true. apply mirror_positions.
  - apply is_palindrome_simple_symmetric.
Qed.

(** C3. The cleaning pass walks the input once from left to right; a
    character is kept exactly when it is itself alphanumeric, each kept
    character is replaced by its lower case, and the order is that of the
    input, nothing moved or repeated.  With the Basic Latin rows of the
    host's table, "Madam, I'm Adam!" is cleaned to "madamimadam". *)
Theorem cleaned_scan {T : CharTable} :
  cleaned [] = []
  /\ (forall c rest,
        cleaned (c :: rest)
        = (if isalnum c then lower c else []) ++ cleaned rest)
  /\ (forall text,
        cleaned text = concat (map lower (List.filter isalnum text)))
  /\ (forall u v, cleaned (u ++ v) = cleaned u ++ cleaned v)
  /\ (AsciiRows T ->
      cleaned (codepoints "Madam, I'm Adam!") = codepoints "madamimadam").
Proof.
  split; [reflexivity|]. split.
  { intros c rest. simpl. now destruct (isalnum c). }
  split; [apply cleaned_normalize|].
  split; [apply cleaned_app|].
  intros HT.
  assert (Hrow : forall c, 0 <= c < 128 ->
            isalnum c = ascii_isalnum c /\ lower c = ascii_lower c)
    by exact HT.
  cbn [codepoints list_ascii_of_string map cleaned].
  repeat match goal with
  | |- context [isalnum ?c] =>
      let c' := eval vm_compute in c in
      change c with c';
      destruct (Hrow c') as [-> ->]; [lia|]
  end.
  reflexivity.
Qed.

Lemma cleaned_scan_witness :
  AsciiRows basic_latin
  /\ @cleaned basic_latin (codepoints "Madam, I'm Adam!")
     = codepoints "madamimadam".
Proof.
  split; [exact basic_latin_rows|].
  apply (@cleaned_scan basic_latin). exact basic_latin_rows.
Defined.

(** ** What cleaning leaves behind *)

(** C4, as stated, fails: U+0130 is alphanumeric and is kept, and its lower
    case brings the combining mark U+0307, which is not alphanumeric, into
    the cleaned sequence. *)
Lemma cleaned_dotted_not_alnum :
  ~ Forall (fun c => @isalnum dotted_latin c = true)
           (@cleaned dotted_latin [304]).
Proof.
  intros H. apply Forall_cons in H as [_ H].
  apply Forall_cons in H as [H _].
  vm_compute in H. discriminate H.
Qed.

(** C4, amended.  For every string of Basic Latin (ASCII) characters, every
    character of the cleaned sequence is one of [0-9a-z]: alphanumeric, its
    own lower case, and neither an upper-case letter nor whitespace nor
    punctuation. *)
Theorem cleaned_ascii_class {T : CharTable} (HT : AsciiRows T)
    (text : list Z) (Htext : is_ascii text) :
  Forall (fun c =>
            isalnum c = true /\ lower c = [c]
            /\ is_digit c || is_lower_letter c = true
            /\ is_upper_letter c = false
            /\ ascii_isspace c = false
            /\ ascii_ispunct c = false)
         (cleaned text).
Proof.
  induction Htext as [|c text Hc _ IH]; simpl; [constructor|].
  destruct (isalnum c) eqn:Ec; [|exact IH].
  apply Forall_app. split; [|exact IH].
  eapply Forall_impl; [apply (ascii_lower_class HT c Hc Ec)|].
  intros d [Hd Hcl]. simpl.
  destruct (ascii_lower_fixed HT d Hd Hcl) as [Hal Hlow].
  repeat split; try assumption; revert Hcl; ascii_ranges; lia.
Qed.

Lemma cleaned_ascii_class_witness :
  AsciiRows basic_latin
  /\ is_ascii (codepoints "Madam, I'm Adam!")
  /\ Forall (fun c =>
               @isalnum basic_latin c = true /\ @lower basic_latin c = [c]
               /\ is_digit c || is_lower_letter c = true
               /\ is_upper_letter c = false
               /\ ascii_isspace c = false
               /\ ascii_ispunct c = false)
            (@cleaned basic_latin (codepoints "Madam, I'm Adam!")).
Proof.
  assert (Htext : is_ascii (codepoints "Madam, I'm Adam!"))
    by (repeat constructor; vm_compute; discriminate).
  split; [exact basic_latin_rows|]. split; [exact Htext|].
  exact (cleaned_ascii_class basic_latin_rows _ Htext).
Defined.

(** C5, as stated, fails: cleaning U+0130 gives U+0069 U+0307, and cleaning
    that again drops the mark; the first is not a palindrome, the second
    is. *)
Lemma cleaned_dotted_not_idempotent :
  @cleaned dotted_latin (@cleaned dotted_latin [304])
    <> @cleaned dotted_latin [304]
  /\ @is_palindrome dotted_latin [304]
     <> @is_palindrome dotted_latin (@cleaned dotted_latin [304]).
Proof. split; vm_compute; discriminate. Qed.

(** C5, amended.  For every string each of whose alphanumeric characters
    has a lower case made of alphanumeric characters that are their own
    lower case (every ASCII string is one), cleaning twice is cleaning
    once, and the verdict on the string is the verdict on its cleaned
    form. *)
Theorem cleaned_idempotent {T : CharTable} (s : list Z)
    (Hs : Forall (fun c => isalnum c = true -> lower_stable c) s) :
  cleaned (cleaned s) = cleaned s
  /\ is_palindrome s = is_palindrome (cleaned s).
Proof.
  pose proof (cleaned_twice s Hs) as Hidem.
  split; [exact Hidem|].
  unfold is_palindrome. now rewrite Hidem.
Qed.

Lemma cleaned_idempotent_witness :
  Forall (fun c => @isalnum basic_latin c = true -> @lower_stable basic_latin c)
         (codepoints "Madam, I'm Adam!")
  /\ @cleaned basic_latin (@cleaned basic_latin (codepoints "Madam, I'm Adam!"))
     = @cleaned basic_latin (codepoints "Madam, I'm Adam!")
  /\ @is_palindrome basic_latin (codepoints "Madam, I'm Adam!")
     = @is_palindrome basic_latin
         (@cleaned basic_latin (codepoints "Madam, I'm Adam!")).
Proof.
  assert (Hs : Forall (fun c => @isalnum basic_latin c = true ->
                                @lower_stable basic_latin c)
                      (codepoints "Madam, I'm Adam!")).
  { repeat constructor; vm_compute; try discriminate;
      intros _; repeat constructor. }
  split; [exact Hs|].
  exact (@cleaned_idempotent basic_latin _ Hs).
Defined.

(** Every ASCII string is made of characters with a stable lower case, of
    one character. *)
Lemma ascii_text_stable {T : CharTable} (HT : AsciiRows T) (s : list Z) :
  is_ascii s -> Forall (fun c => isalnum c = true -> lower_stable c) s.
Proof.
  intros Hs. eapply Forall_impl; [exact Hs|].
  intros c Hc Hal. now apply ascii_lower_stable.
Qed.

Lemma ascii_text_single {T : CharTable} (HT : AsciiRows T) (s : list Z) :
  is_ascii s ->
  Forall (fun c => isalnum c = true -> (length (lower c) <= 1)%nat) s.
Proof.
  intros Hs. eapply Forall_impl; [exact Hs|].
  intros c Hc _. now rewrite ascii_lower_single.
Qed.

(** ** The exact check against the normalizing check *)

(** C6, as stated, fails: the one-character string U+0130 is its own
    reverse, but its cleaned form U+0069 U+0307 is not. *)
Lemma simple_dotted_not_palindrome :
  is_palindrome_simple [304] = true
  /\ @is_palindrome dotted_latin [304] = false.
Proof. split; reflexivity. Qed.

(** C6, amended.  For every string each of whose alphanumeric characters
    has a lower case of at most one character (every ASCII string is one),
    a true exact check gives a true normalizing check.  The converse does
    not hold: "Racecar" passes the normalizing check and fails the exact
    one. *)
Theorem simple_implies_palindrome {T : CharTable} :
  (forall s,
     Forall (fun c => isalnum c = true -> (length (lower c) <= 1)%nat) s ->
     is_palindrome_simple s = true -> is_palindrome s = true)
  /\ (AsciiRows T ->
      is_palindrome (codepoints "Racecar") = true
      /\ is_palindrome_simple (codepoints "Racecar") = false).
Proof.
  split.
  - intros s Hs Hsim. apply is_palindrome_true.
    apply is_palindrome_simple_true in Hsim.
    rewrite <- (cleaned_reverse s Hs). now rewrite <- Hsim.
  - intros HT. split; [|reflexivity].
    assert (Hrow : forall c, 0 <= c < 128 ->
              isalnum c = ascii_isalnum c /\ lower c = ascii_lower c)
      by exact HT.
    unfold is_palindrome.
    cbn [codepoints list_ascii_of_string map cleaned].
    repeat match goal with
    | |- context [isalnum ?c] =>
        let c' := eval vm_compute in c in
        change c with c';
        destruct (Hrow c') as [-> ->]; [lia|]
    end.
    reflexivity.
Qed.

Lemma simple_implies_palindrome_witness :
  Forall (fun c => @isalnum basic_latin c = true ->
                   (length (@lower basic_latin c) <= 1)%nat)
         (codepoints "12321")
  /\ is_palindrome_simple (codepoints "12321") = true
  /\ @is_palindrome basic_latin (codepoints "12321") = true
  /\ AsciiRows basic_latin
  /\ @is_palindrome basic_latin (codepoints "Racecar") = true
  /\ is_palindrome_simple (codepoints "Racecar") = false.
Proof.
  assert (Hs : Forall (fun c => @isalnum basic_latin c = true ->
                                (length (@lower basic_latin c) <= 1)%nat)
                      (codepoints "12321"))
    by (repeat constructor).
  split; [exact Hs|]. split; [reflexivity|].
  split; [exact (proj1 (@simple_implies_palindrome basic_latin) _ Hs eq_refl)|].
  split; [exact basic_latin_rows|].
  exact (proj2 (@simple_implies_palindrome basic_latin) basic_latin_rows).
Defined.

(** C7. The symmetry test gives the same answer on a sequence and on its
    reverse. *)
Theorem is_palindrome_simple_reverse (s : list Z) :
  is_palindrome_simple s = is_palindrome_simple (reverse s)
  /\ is_symmetric s = is_symmetric (reverse s).
Proof.
  assert (H : is_palindrome_simple s = is_palindrome_simple (reverse s)).
  { apply eq_true_iff_eq. rewrite !is_palindrome_simple_true.
    rewrite reverse_involutive. split; intros E; now symmetry. }
  split; [exact H|].
  now rewrite <- !is_palindrome_simple_symmetric.
Qed.

(** C8. The empty sequence and every sequence of one character are
    symmetric. *)
Theorem short_is_symmetric (s : list Z) (Hs : (length s <= 1)%nat) :
  is_palindrome_simple s = true /\ is_symmetric s = true.
Proof.
  rewrite <- is_palindrome_simple_symmetric.
  assert (H : is_palindrome_simple s = true); [|now split].
  destruct s as [|c [|d s]]; simpl in Hs; [reflexivity| |lia].
  apply is_palindrome_simple_true. reflexivity.
Qed.

Lemma short_is_symmetric_witness :
  ((length (@nil Z) <= 1)%nat
   /\ is_palindrome_simple [] = true /\ is_symmetric [] = true)
  /\ ((length [304] <= 1)%nat
      /\ is_palindrome_simple [304] = true /\ is_symmetric [304] = true).
Proof.
  split.
  - split; [simpl; lia|]. apply (short_is_symmetric []). simpl. lia.
  - split; [simpl; lia|]. apply (short_is_symmetric [304]). simpl. lia.
Defined.

(** ** Characters the normalizing check does not see *)

(** C9. A character that is not alphanumeric can be put into a string, or
    taken out of it, anywhere, and the verdict stays the same. *)
Theorem is_palindrome_skips {T : CharTable} (u v : list Z) (c : Z)
    (Hc : isalnum c = false) :
  is_palindrome (u ++ [c] ++ v) = is_palindrome (u ++ v).
Proof.
  unfold is_palindrome. rewrite !cleaned_app. simpl. now rewrite Hc.
Qed.

Lemma is_palindrome_skips_witness :
  @isalnum basic_latin 44 = false
  /\ @is_palindrome basic_latin
       (codepoints "Madam" ++ [44] ++ codepoints " I'm Adam")
     = @is_palindrome basic_latin
         (codepoints "Madam" ++ codepoints " I'm Adam").
Proof.
  split; [reflexivity|].
  apply (@is_palindrome_skips basic_latin). reflexivity.
Defined.

(** C10. A string without any alphanumeric character, the empty string
    among them, is cleaned to the empty sequence and is a palindrome. *)
Theorem is_palindrome_no_alnum {T : CharTable} (text : list Z)
    (Htext : Forall (fun c => isalnum c = false) text) :
  cleaned text = [] /\ is_palindrome text = true.
Proof.
  pose proof (cleaned_nil text Htext) as Hnil.
  split; [exact Hnil|].
  unfold is_palindrome. now rewrite Hnil.
Qed.

Lemma is_palindrome_no_alnum_witness :
  Forall (fun c => @isalnum basic_latin c = false) (codepoints " ,.!?")
  /\ @cleaned basic_latin (codepoints " ,.!?") = []
  /\ @is_palindrome basic_latin (codepoints " ,.!?") = true.
Proof.
  assert (Htext : Forall (fun c => @isalnum basic_latin c = false)
                         (codepoints " ,.!?"))
    by (repeat constructor).
  split; [exact Htext|].
  exact (@is_palindrome_no_alnum basic_latin _ Htext).
Defined.

(** ** Further properties of the two checks *)

Lemma cleaned_same_class {T : CharTable} (t t' : list Z) :
  Forall2 same_class t t' -> cleaned t = cleaned t'.
Proof.
  induction 1 as [|c d t t' [Hal Hlow] _ IH]; simpl; [reflexivity|].
  now rewrite Hal, Hlow, IH.
Qed.

(** On ASCII text only the Basic Latin rows of the table are read. *)
Lemma cleaned_basic_latin {T : CharTable} (HT : AsciiRows T) (text : list Z) :
  is_ascii text -> @cleaned T text = @cleaned basic_latin text.
Proof.
  induction 1 as [|c text Hc _ IH]; simpl; [reflexivity|].
  destruct (HT c Hc) as [-> ->]. now rewrite IH.
Qed.

Lemma is_palindrome_basic_latin {T : CharTable} (HT : AsciiRows T)
    (text : list Z) :
  is_ascii text -> @is_palindrome T text = @is_palindrome basic_latin text.
Proof.
  intros Htext. unfold is_palindrome.
  now rewrite (cleaned_basic_latin HT text Htext).
Qed.

Lemma simple_reverse (s : list Z) :
  is_palindrome_simple (reverse s) = is_palindrome_simple s.
Proof.
  apply eq_true_iff_eq. rewrite !is_palindrome_simple_true.
  rewrite reverse_involutive. split; intros E; now symmetry.
Qed.

Lemma ascii_swapcase_range c : 0 <= c < 128 -> 0 <= ascii_swapcase c < 128.
Proof.
  intros Hc. unfold ascii_swapcase. ascii_ranges.
  destruct ((65 <=? c) && (c <=? 90)) eqn:Eu; [lia|].
  destruct ((97 <=? c) && (c <=? 122)) eqn:El; lia.
Qed.

Lemma ascii_swapcase_class {T : CharTable} (HT : AsciiRows T) (c : Z) :
  0 <= c < 128 -> same_class c (ascii_swapcase c).
Proof.
  intros Hc. pose proof (ascii_swapcase_range c Hc) as Hs.
  destruct (HT c Hc) as [Ea El]. destruct (HT _ Hs) as [Ea' El'].
  unfold same_class. rewrite Ea, El, Ea', El'. clear Ea El Ea' El' Hs.
  unfold ascii_swapcase, ascii_isalnum, ascii_lower. ascii_ranges.
  destruct ((65 <=? c) && (c <=? 90)) eqn:Eu.
  - replace ((65 <=? c + 32) && (c + 32 <=? 90)) with false by lia.
    split; [lia|reflexivity].
  - destruct ((97 <=? c) && (c <=? 122)) eqn:El.
    + replace ((65 <=? c - 32) && (c - 32 <=? 90)) with true by lia.
      split; [lia|f_equal; lia].
    + rewrite ?Eu, ?El. split; reflexivity.
Qed.

(** The verdict of [is_palindrome] on an ASCII string is the same under
    every character table that has the Basic Latin rows: it does not depend
    on what the host says about any other character. *)
Theorem ascii_verdict_any_table (T1 T2 : CharTable)
    (H1 : AsciiRows T1) (H2 : AsciiRows T2)
    (text : list Z) (Htext : is_ascii text) :
  @cleaned T1 text = @cleaned T2 text
  /\ @is_palindrome T1 text = @is_palindrome T2 text.
Proof.
  split.
  - now rewrite (cleaned_basic_latin H1), (cleaned_basic_latin H2).
  - now rewrite (is_palindrome_basic_latin H1), (is_palindrome_basic_latin H2).
Qed.

Lemma ascii_verdict_any_table_witness :
  AsciiRows basic_latin /\ AsciiRows dotted_latin
  /\ is_ascii (codepoints "Madam, I'm Adam!")
  /\ @cleaned basic_latin (codepoints "Madam, I'm Adam!")
     = @cleaned dotted_latin (codepoints "Madam, I'm Adam!")
  /\ @is_palindrome basic_latin (codepoints "Madam, I'm Adam!")
     = @is_palindrome dotted_latin (codepoints "Madam, I'm Adam!").
Proof.
  assert (Htext : is_ascii (codepoints "Madam, I'm Adam!"))
    by (repeat constructor; vm_compute; discriminate).
  split; [exact basic_latin_rows|]. split; [exact dotted_latin_rows|].
  split; [exact Htext|].
  exact (ascii_verdict_any_table basic_latin dotted_latin
           basic_latin_rows dotted_latin_rows _ Htext).
Defined.

(** [is_palindrome] ignores the case of ASCII letters: changing the case of
    any of the letters of an ASCII string leaves the cleaned sequence, and
    so the verdict, as it was. *)
Theorem is_palindrome_ignores_case {T : CharTable} (HT : AsciiRows T)
    (text text' : list Z) (Htext : is_ascii text)
    (Hcase : Forall2 (fun c d => d = c \/ d = ascii_swapcase c) text text') :
  cleaned text' = cleaned text /\ is_palindrome text' = is_palindrome text.
Proof.
  assert (Hcl : cleaned text = cleaned text').
  { apply cleaned_same_class. revert Htext.
    induction Hcase as [|c d t t' Hcd _ IH]; intros Htext; [constructor|].
    apply Forall_cons in Htext as [Hc Ht].
    constructor; [|exact (IH Ht)].
    destruct Hcd as [->| ->]; [split; reflexivity|].
    now apply ascii_swapcase_class. }
  split; [now symmetry|]. unfold is_palindrome. now rewrite Hcl.
Qed.

Lemma is_palindrome_ignores_case_witness :
  AsciiRows basic_latin
  /\ is_ascii (codepoints "Madam")
  /\ Forall2 (fun c d => d = c \/ d = ascii_swapcase c)
             (codepoints "Madam") (codepoints "mADam")
  /\ @cleaned basic_latin (codepoints "mADam")
     = @cleaned basic_latin (codepoints "Madam")
  /\ @is_palindrome basic_latin (codepoints "mADam")
     = @is_palindrome basic_latin (codepoints "Madam").
Proof.
  assert (Htext : is_ascii (codepoints "Madam"))
    by (repeat constructor; vm_compute; discriminate).
  assert (Hcase : Forall2 (fun c d => d = c \/ d = ascii_swapcase c)
                          (codepoints "Madam") (codepoints "mADam")).
  { repeat (apply List.Forall2_cons; [vm_compute; auto|]).
    apply List.Forall2_nil. }
  split; [exact basic_latin_rows|]. split; [exact Htext|].
  split; [exact Hcase|].
  exact (is_palindrome_ignores_case basic_latin_rows _ _ Htext Hcase).
Defined.

(** Reading a text backwards does not change the verdict of
    [is_palindrome], provided no alphanumeric character of it has a lower
    case of more than one character (as in every ASCII text). *)
Theorem is_palindrome_reverse {T : CharTable} (text : list Z)
    (Htext : Forall (fun c => isalnum c = true ->
                              (length (lower c) <= 1)%nat) text) :
  is_palindrome (reverse text) = is_palindrome text.
Proof.
  rewrite !is_palindrome_cleaned, (cleaned_reverse text Htext).
  apply simple_reverse.
Qed.

Lemma is_palindrome_reverse_witness :
  Forall (fun c => @isalnum basic_latin c = true ->
                   (length (@lower basic_latin c) <= 1)%nat)
         (codepoints "race a car")
  /\ @is_palindrome basic_latin (reverse (codepoints "race a car"))
     = @is_palindrome basic_latin (codepoints "race a car").
Proof.
  assert (Htext : Forall (fun c => @isalnum basic_latin c = true ->
                                   (length (@lower basic_latin c) <= 1)%nat)
                         (codepoints "race a car"))
    by (repeat constructor).
  split; [exact Htext|].
  exact (@is_palindrome_reverse basic_latin _ Htext).
Defined.

(** The exact check peels a string from both ends: a string with first
    character [c] and last character [d] passes exactly when [c] is [d] and
    what lies between them passes. *)
Theorem is_palindrome_simple_peel (c d : Z) (s : list Z) :
  is_palindrome_simple (c :: s ++ [d])
  = bool_decide (c = d) && is_palindrome_simple s.
Proof.
  apply eq_true_iff_eq.
  rewrite andb_true_iff, bool_decide_eq_true, !is_palindrome_simple_true.
  rewrite reverse_cons, reverse_app. simpl.
  split.
  - intros E. injection E as Ecd E.
    apply app_inj_tail in E as [E _]. now split.
  - intros [-> <-]. reflexivity.
Qed.

(** A text followed by its own reverse, with or without one more character
    in the middle, passes the exact check. *)
Theorem mirrored_is_palindrome_simple (s : list Z) :
  is_palindrome_simple (s ++ reverse s) = true
  /\ forall c, is_palindrome_simple (s ++ c :: reverse s) = true.
Proof.
  split; [|intros c]; apply is_palindrome_simple_true.
  - now rewrite reverse_app, reverse_involutive.
  - rewrite reverse_app, reverse_cons, reverse_involutive.
    now rewrite <- app_assoc.
Qed.

(** On a text in which every character is alphanumeric and is its own
    lower case, such as a text of ASCII digits and lower-case letters,
    cleaning changes nothing and the two checks give the same answer. *)
Theorem checks_agree_on_clean_text {T : CharTable} (text : list Z)
    (Htext : Forall (fun d => isalnum d = true /\ lower d = [d]) text) :
  cleaned text = text /\ is_palindrome text = is_palindrome_simple text.
Proof.
  pose proof (cleaned_fixed text Htext) as Hfix.
  split; [exact Hfix|].
  rewrite is_palindrome_cleaned. now rewrite Hfix.
Qed.

Lemma checks_agree_on_clean_text_witness :
  Forall (fun d => @isalnum basic_latin d = true /\ @lower basic_latin d = [d])
         (codepoints "abc12321")
  /\ @cleaned basic_latin (codepoints "abc12321") = codepoints "abc12321"
  /\ @is_palindrome basic_latin (codepoints "abc12321")
     = is_palindrome_simple (codepoints "abc12321").
Proof.
  assert (Htext : Forall (fun d => @isalnum basic_latin d = true
                                   /\ @lower basic_latin d = [d])
                         (codepoints "abc12321"))
    by (repeat constructor).
  split; [exact Htext|].
  exact (@checks_agree_on_clean_text basic_latin _ Htext).
Defined.

(** Where every alphanumeric character of a text has a lower case of
    exactly one character (as in every ASCII text), the cleaned sequence has
    one character for each alphanumeric character of the text, so it is
    never longer than the text. *)
Theorem cleaned_length {T : CharTable} (text : list Z)
    (Htext : Forall (fun c => isalnum c = true ->
                              length (lower c) = 1%nat) text) :
  length (cleaned text) = length (List.filter isalnum text)
  /\ (length (cleaned text) <= length text)%nat.
Proof.
  induction Htext as [|c text Hc _ [IH1 IH2]]; simpl; [split; lia|].
  destruct (isalnum c) eqn:Ec; simpl.
  - rewrite length_app, (Hc eq_refl), IH1. split; lia.
  - split; [exact IH1|lia].
Qed.

Lemma cleaned_length_witness :
  Forall (fun c => @isalnum basic_latin c = true ->
                   length (@lower basic_latin c) = 1%nat)
         (codepoints "Madam, I'm Adam!")
  /\ length (@cleaned basic_latin (codepoints "Madam, I'm Adam!"))
     = length (List.filter (@isalnum basic_latin)
                           (codepoints "Madam, I'm Adam!"))
  /\ (length (@cleaned basic_latin (codepoints "Madam, I'm Adam!"))
      <= length (codepoints "Madam, I'm Adam!"))%nat.
Proof.
  assert (Htext : Forall (fun c => @isalnum basic_latin c = true ->
                                   length (@lower basic_latin c) = 1%nat)
                         (codepoints "Madam, I'm Adam!")).
  { repeat (apply List.Forall_cons; [intros _; vm_compute; reflexivity|]).
    apply List.Forall_nil. }
  split; [exact Htext|].
  exact (@cleaned_length basic_latin _ Htext).
Defined.

(** ** The demonstration *)

Ltac ascii_text :=
  repeat (apply List.Forall_cons; [vm_compute; split; [discriminate|reflexivity]|]);
  apply List.Forall_nil.

Lemma test_cases_ascii : Forall is_ascii test_cases.
Proof.
  unfold test_cases.
  repeat (apply List.Forall_cons; [ascii_text|]). apply List.Forall_nil.
Qed.


Lemma demonstrate_case_length {T : CharTable} (test : list Z) :
  length (demonstrate_case test)
  = if is_palindrome test then 5%nat else 4%nat.
Proof. unfold demonstrate_case. now destruct (is_palindrome test). Qed.

Lemma demonstrate_case_basic_latin {T : CharTable} (HT : AsciiRows T)
    (test : list Z) :
  is_ascii test ->
  @demonstrate_case T test = @demonstrate_case basic_latin test.
Proof.
  intros Htest. unfold demonstrate_case.
  now rewrite (is_palindrome_basic_latin HT test Htest),
              (cleaned_basic_latin HT test Htest).
Qed.

Lemma demonstrate_loop_basic_latin {T : CharTable} (HT : AsciiRows T)
    (cases : list (list Z)) :
  Forall is_ascii cases ->
  @demonstrate_loop T cases = @demonstrate_loop basic_latin cases.
Proof.
  unfold demonstrate_loop.
  induction 1 as [|test cases Htest _ IH]; cbn [map concat]; [reflexivity|].
  now rewrite (demonstrate_case_basic_latin HT test Htest), IH.
Qed.



(** The loop prints four lines for every case and a fifth for every case
    that passes [is_palindrome]. *)
Theorem demonstrate_loop_length {T : CharTable} (cases : list (list Z)) :
  length (demonstrate_loop cases)
  = (4 * length cases + length (List.filter is_palindrome cases))%nat.
Proof.
  unfold demonstrate_loop.
  induction cases as [|test cases IH]; [reflexivity|].
  cbn [map concat List.filter]. rewrite length_app, IH, demonstrate_case_length.
  destruct (is_palindrome test); simpl; lia.
Qed.

(** Under every character table with the Basic Latin rows the demonstration
    prints the same 39 lines; of its eight cases five pass [is_palindrome]
    and two of those pass [is_palindrome_simple]. *)
Theorem demonstrate_palindromes_output {T : CharTable} (HT : AsciiRows T) :
  @demonstrate_palindromes T = @demonstrate_palindromes basic_latin
  /\ length (@demonstrate_palindromes T) = 39%nat
  /\ map (fun test => (is_palindrome test, is_palindrome_simple test))
         test_cases
     = [ (true, true); (true, false); (false, false); (true, false);
         (true, false); (false, false); (true, true); (false, false) ].
Proof.
  assert (Hdemo : @demonstrate_palindromes T
                  = @demonstrate_palindromes basic_latin).
  { unfold demonstrate_palindromes.
    now rewrite (demonstrate_loop_basic_latin HT _ test_cases_ascii). }
  split; [exact Hdemo|]. split; [now rewrite Hdemo|].
  transitivity
    (map (fun test => (@is_palindrome basic_latin test,
                       is_palindrome_simple test)) test_cases);
    [|reflexivity].
  pose proof test_cases_ascii as Hascii.
  induction Hascii as [|test cases Htest _ IH]; simpl; [reflexivity|].
  now rewrite (is_palindrome_basic_latin HT test Htest), IH.
Qed.

Lemma demonstrate_palindromes_output_witness :
  AsciiRows dotted_latin
  /\ @demonstrate_palindromes dotted_latin
     = @demonstrate_palindromes basic_latin
  /\ length (@demonstrate_palindromes dotted_latin) = 39%nat.
Proof.
  split; [exact dotted_latin_rows|].
  pose proof (@demonstrate_palindromes_output dotted_latin dotted_latin_rows)
    as (H1 & H2 & _).
  split; [exact H1|exact H2].
Defined.

(** The examples in the docstrings of the two checks are what the code
    answers, under every character table with the Basic Latin rows. *)
Theorem docstring_examples {T : CharTable} (HT : AsciiRows T) :
  is_palindrome (codepoints "racecar") = true
  /\ is_palindrome (codepoints "A man a plan a canal Panama") = true
  /\ is_palindrome (codepoints "race a car") = false
  /\ is_palindrome (codepoints "hello") = false
  /\ is_palindrome_simple (codepoints "racecar") = true
  /\ is_palindrome_simple (codepoints "Racecar") = false
  /\ is_palindrome_simple (codepoints "12321") = true.
Proof.
  repeat split; try reflexivity;
    (rewrite (is_palindrome_basic_latin HT); [reflexivity|ascii_text]).
Qed.

Lemma docstring_examples_witness :
  AsciiRows dotted_latin
  /\ @is_palindrome dotted_latin (codepoints "A man a plan a canal Panama")
     = true
  /\ @is_palindrome dotted_latin (codepoints "hello") = false.
Proof.
  split; [exact dotted_latin_rows|].
  pose proof (@docstring_examples dotted_latin dotted_latin_rows)
    as (_ & H2 & _ & H4 & _).
  split; [exact H2|exact H4].
Defined.

(** ** The character counting tool *)

Ltac key_ne := let H := fresh in intros H; vm_compute in H; discriminate H.

Lemma codepoints_inj (s1 s2 : string) :
  codepoints s1 = codepoints s2 -> s1 = s2.
Proof.
  unfold codepoints. intros H.
  rewrite <- (string_of_list_ascii_of_string s1),
          <- (string_of_list_ascii_of_string s2).
  f_equal. revert H.
  generalize (list_ascii_of_string s1) (list_ascii_of_string s2).
  induction l as [|a l IH]; intros [|b l']; simpl; intros H;
    try discriminate H; [reflexivity|].
  injection H as Hab H. f_equal; [|now apply IH].
  apply N2Z.inj in Hab.
  now rewrite <- (ascii_N_embedding a), <- (ascii_N_embedding b), Hab.
Qed.

Lemma str_of_nat_inj (n m : nat) : str_of_nat n = str_of_nat m -> n = m.
Proof.
  unfold str_of_nat. intros H. apply codepoints_inj in H.
  now apply (inj pretty) in H.
Qed.

Lemma tool_result_id i n :
  getitem (tool_result i n) (codepoints "toolUseId") = inr i.
Proof. unfold tool_result, getitem. now rewrite lookup_insert_eq. Qed.

Lemma tool_result_status i n :
  getitem (tool_result i n) (codepoints "status")
  = inr (PStr (codepoints "success")).
Proof.
  unfold tool_result, getitem.
  rewrite lookup_insert_ne by key_ne. now rewrite lookup_insert_eq.
Qed.

Lemma tool_result_content i n :
  getitem (tool_result i n) (codepoints "content")
  = inr (PList [ PDict {[ codepoints "text" :=
                   PStr (codepoints "Character count: " ++ str_of_nat n) ]} ]).
Proof.
  unfold tool_result, getitem.
  rewrite !lookup_insert_ne by key_ne. now rewrite lookup_insert_eq.
Qed.

Lemma tool_result_keys i n k v :
  getitem (tool_result i n) k = inr v ->
  k = codepoints "toolUseId" \/ k = codepoints "status"
  \/ k = codepoints "content".
Proof.
  unfold tool_result, getitem.
  destruct (decide (k = codepoints "toolUseId")) as [|H1]; [auto|].
  destruct (decide (k = codepoints "status")) as [|H2]; [auto|].
  destruct (decide (k = codepoints "content")) as [|H3]; [auto|].
  rewrite !lookup_insert_ne by congruence. rewrite lookup_empty.
  discriminate.
Qed.

(** The tool on a dictionary, key by key. *)
Lemma count_chars_dict (d : gmap (list Z) pyval) :
  count_chars (PDict d)
  = match d !! codepoints "toolUseId" with
    | None => inl (KeyError (codepoints "toolUseId"))
    | Some i =>
        match d !! codepoints "input" with
        | None => inl (KeyError (codepoints "input"))
        | Some input =>
            let! text := getitem input (codepoints "text") in
            let! char_count := len text in
            inr (tool_result i char_count)
        end
    end.
Proof.
  unfold count_chars. unfold getitem at 1 2.
  destruct (d !! codepoints "toolUseId"); [|reflexivity].
  now destruct (d !! codepoints "input").
Qed.

(** The shape of every request on which the tool returns. *)
Lemma count_chars_inr tool_use r :
  count_chars tool_use = inr r ->
  exists d i input text n,
    tool_use = PDict d
    /\ d !! codepoints "toolUseId" = Some i
    /\ d !! codepoints "input" = Some input
    /\ getitem input (codepoints "text") = inr text
    /\ len text = inr n
    /\ r = tool_result i n.
Proof.
  unfold count_chars. destruct tool_use as [| | | | | |d]; try discriminate.
  unfold getitem at 1 2.
  destruct (d !! codepoints "toolUseId") as [i|] eqn:Ei; [|discriminate].
  destruct (d !! codepoints "input") as [input|] eqn:Ein; [|discriminate].
  cbn [bind].
  destruct (getitem input (codepoints "text")) as [e|text] eqn:Et;
    [discriminate|].
  cbn [bind]. destruct (len text) as [e|n] eqn:En; [discriminate|].
  cbn [bind]. intros [= <-]. now exists d, i, input, text, n.
Qed.

(** A request that carries a [toolUseId] and whose [input] meets the input
    schema of [TOOL_SPEC] is always answered: the tool returns the result
    dictionary for that id and the number of code points of the text. *)
Theorem count_chars_on_schema_input
    (d : gmap (list Z) pyval) (i input : pyval)
    (Hid : d !! codepoints "toolUseId" = Some i)
    (Hin : d !! codepoints "input" = Some input)
    (Hschema : meets_input_schema input) :
  exists s,
    getitem input (codepoints "text") = inr (PStr s)
    /\ count_chars (PDict d) = inr (tool_result i (length s)).
Proof.
  destruct Hschema as (di & s & -> & Htext). exists s.
  unfold count_chars, getitem. rewrite Hid, Hin. cbn [bind].
  rewrite Htext. split; reflexivity.
Qed.

Lemma count_chars_on_schema_input_witness :
  let input := PDict {[ codepoints "text" := PStr (codepoints "hello") ]} in
  let d : gmap (list Z) pyval :=
    <[codepoints "toolUseId" := PStr (codepoints "t1")]>
      (<[codepoints "input" := input]> ∅) in
  d !! codepoints "toolUseId" = Some (PStr (codepoints "t1"))
  /\ d !! codepoints "input" = Some input
  /\ meets_input_schema input
  /\ exists s,
       getitem input (codepoints "text") = inr (PStr s)
       /\ count_chars (PDict d)
          = inr (tool_result (PStr (codepoints "t1")) (length s)).
Proof.
  intros input d.
  assert (Hid : d !! codepoints "toolUseId" = Some (PStr (codepoints "t1")))
    by reflexivity.
  assert (Hin : d !! codepoints "input" = Some input) by reflexivity.
  assert (Hschema : meets_input_schema input).
  { exists {[ codepoints "text" := PStr (codepoints "hello") ]},
      (codepoints "hello"). split; reflexivity. }
  split; [exact Hid|]. split; [exact Hin|]. split; [exact Hschema|].
  exact (count_chars_on_schema_input d _ input Hid Hin Hschema).
Defined.

(** A missing key is a [KeyError] naming that key, and the keys are read
    in the order [toolUseId], [input], [text]: a request without an id
    fails on the id whatever its input is. *)
Theorem count_chars_missing_key (d : gmap (list Z) pyval) :
  (d !! codepoints "toolUseId" = None ->
   count_chars (PDict d) = inl (KeyError (codepoints "toolUseId")))
  /\ (forall i,
        d !! codepoints "toolUseId" = Some i ->
        d !! codepoints "input" = None ->
        count_chars (PDict d) = inl (KeyError (codepoints "input")))
  /\ (forall i di,
        d !! codepoints "toolUseId" = Some i ->
        d !! codepoints "input" = Some (PDict di) ->
        di !! codepoints "text" = None ->
        count_chars (PDict d) = inl (KeyError (codepoints "text"))).
Proof.
  unfold count_chars, getitem. repeat split.
  - intros ->. reflexivity.
  - intros i -> ->. reflexivity.
  - intros i di -> ->. cbn [bind]. intros ->. reflexivity.
Qed.

Lemma count_chars_missing_key_witness :
  let d : gmap (list Z) pyval :=
    <[codepoints "toolUseId" := PStr (codepoints "t1")]>
      (<[codepoints "input" := PDict ∅]> ∅) in
  (∅ : gmap (list Z) pyval) !! codepoints "toolUseId" = None
  /\ count_chars (PDict ∅) = inl (KeyError (codepoints "toolUseId"))
  /\ d !! codepoints "toolUseId" = Some (PStr (codepoints "t1"))
  /\ d !! codepoints "input" = Some (PDict ∅)
  /\ (∅ : gmap (list Z) pyval) !! codepoints "text" = None
  /\ count_chars (PDict d) = inl (KeyError (codepoints "text")).
Proof.
  intros d.
  split; [reflexivity|].
  split; [exact (proj1 (count_chars_missing_key ∅) eq_refl)|].
  split; [reflexivity|]. split; [reflexivity|]. split; [reflexivity|].
  exact (proj2 (proj2 (count_chars_missing_key d)) _ _
           eq_refl eq_refl eq_refl).
Defined.

(** A value of the wrong kind is a [TypeError]: an [input] that is not a
    dictionary cannot be subscripted with ["text"], and a [text] that is
    [None], a boolean or a number has no length. *)
Theorem count_chars_type_error
    (d : gmap (list Z) pyval) (i input : pyval)
    (Hid : d !! codepoints "toolUseId" = Some i)
    (Hin : d !! codepoints "input" = Some input) :
  ((forall di, input <> PDict di) ->
   count_chars (PDict d) = inl TypeError)
  /\ (forall di text,
        input = PDict di ->
        di !! codepoints "text" = Some text ->
        (text = PNone \/ (exists b, text = PBool b)
         \/ (exists n, text = PInt n) \/ (exists f, text = PFloat f)) ->
        count_chars (PDict d) = inl TypeError).
Proof.
  assert (Hstart : count_chars (PDict d)
                   = let! text := getitem input (codepoints "text") in
                     let! char_count := len text in
                     inr (tool_result i char_count)).
  { unfold count_chars. unfold getitem at 1 2. now rewrite Hid, Hin. }
  rewrite Hstart. split.
  - intros Hnot. destruct input; try reflexivity. now destruct (Hnot d0).
  - intros di text -> Htext Hkind. cbn [getitem]. rewrite Htext.
    cbn [bind].
    destruct Hkind as [->|[[b ->]|[[n ->]|[f ->]]]]; reflexivity.
Qed.

Lemma count_chars_type_error_witness :
  let d1 : gmap (list Z) pyval :=
    <[codepoints "toolUseId" := PStr (codepoints "t1")]>
      (<[codepoints "input" := PStr (codepoints "hello")]> ∅) in
  let d2 : gmap (list Z) pyval :=
    <[codepoints "toolUseId" := PStr (codepoints "t1")]>
      (<[codepoints "input" := PDict {[ codepoints "text" := PInt 5 ]}]> ∅) in
  count_chars (PDict d1) = inl TypeError
  /\ count_chars (PDict d2) = inl TypeError.
Proof.
  intros d1 d2. split.
  - apply (proj1 (count_chars_type_error d1 (PStr (codepoints "t1"))
                    (PStr (codepoints "hello")) eq_refl eq_refl)).
    intros di H. discriminate H.
  - apply (proj2 (count_chars_type_error d2 (PStr (codepoints "t1"))
                    (PDict {[ codepoints "text" := PInt 5 ]})
                    eq_refl eq_refl)
             {[ codepoints "text" := PInt 5 ]} (PInt 5) eq_refl eq_refl).
    right. right. left. now exists 5.
Defined.

(** The tool does not check that [text] is a string: a list is counted by
    its items and a dictionary by its entries. *)
Theorem count_chars_counts_containers
    (d di : gmap (list Z) pyval) (i : pyval)
    (Hid : d !! codepoints "toolUseId" = Some i)
    (Hin : d !! codepoints "input" = Some (PDict di)) :
  (forall l, di !! codepoints "text" = Some (PList l) ->
             count_chars (PDict d) = inr (tool_result i (length l)))
  /\ (forall m, di !! codepoints "text" = Some (PDict m) ->
                count_chars (PDict d) = inr (tool_result i (size m))).
Proof.
  unfold count_chars, getitem. rewrite Hid, Hin. cbn [bind].
  split; intros x ->; reflexivity.
Qed.

Lemma count_chars_counts_containers_witness :
  let di : gmap (list Z) pyval :=
    {[ codepoints "text" := PList [PInt 1; PNone; PStr []] ]} in
  let d : gmap (list Z) pyval :=
    <[codepoints "toolUseId" := PStr (codepoints "t1")]>
      (<[codepoints "input" := PDict di]> ∅) in
  count_chars (PDict d) = inr (tool_result (PStr (codepoints "t1")) 3).
Proof.
  intros di d.
  exact (proj1 (count_chars_counts_containers d di (PStr (codepoints "t1"))
                  eq_refl eq_refl)
           [PInt 1; PNone; PStr []] eq_refl).
Defined.

(** Whenever the tool returns, the result echoes the [toolUseId] of the
    request, its status is ["success"], and it has no key besides
    [toolUseId], [status] and [content]: a failure is never reported
    through the status, only by an exception. *)
Theorem count_chars_result_shape (tool_use r : pyval)
    (Hret : count_chars tool_use = inr r) :
  getitem r (codepoints "toolUseId")
  = getitem tool_use (codepoints "toolUseId")
  /\ getitem r (codepoints "status") = inr (PStr (codepoints "success"))
  /\ (exists n,
        getitem r (codepoints "content")
        = inr (PList [ PDict {[ codepoints "text" :=
                 PStr (codepoints "Character count: " ++ str_of_nat n) ]} ]))
  /\ (forall k v,
        getitem r k = inr v ->
        k = codepoints "toolUseId" \/ k = codepoints "status"
        \/ k = codepoints "content").
Proof.
  apply count_chars_inr in Hret
    as (d & i & input & text & n & -> & Hid & _ & _ & _ & ->).
  split; [|split; [|split]].
  - rewrite tool_result_id. cbn [getitem]. now rewrite Hid.
  - apply tool_result_status.
  - exists n. apply tool_result_content.
  - apply tool_result_keys.
Qed.

Lemma count_chars_result_shape_witness :
  let tool_use :=
    PDict (<[codepoints "toolUseId" := PStr (codepoints "t1")]>
             (<[codepoints "input" :=
                  PDict {[ codepoints "text" := PStr (codepoints "hello") ]}]>
                ∅)) in
  let r := tool_result (PStr (codepoints "t1")) 5 in
  count_chars tool_use = inr r
  /\ getitem r (codepoints "toolUseId")
     = getitem tool_use (codepoints "toolUseId")
  /\ getitem r (codepoints "status") = inr (PStr (codepoints "success")).
Proof.
  intros tool_use r.
  assert (Hret : count_chars tool_use = inr r) by reflexivity.
  split; [exact Hret|].
  pose proof (count_chars_result_shape tool_use r Hret) as (H1 & H2 & _).
  split; [exact H1|exact H2].
Defined.

(** The message tells the count: two requests with string texts are
    answered with the same content exactly when the texts have the same
    number of code points. *)
Theorem count_chars_message_tells_count
    (d1 d2 di1 di2 : gmap (list Z) pyval) (s1 s2 : list Z) (r1 r2 : pyval)
    (Hin1 : d1 !! codepoints "input" = Some (PDict di1))
    (Hin2 : d2 !! codepoints "input" = Some (PDict di2))
    (Htext1 : di1 !! codepoints "text" = Some (PStr s1))
    (Htext2 : di2 !! codepoints "text" = Some (PStr s2))
    (Hret1 : count_chars (PDict d1) = inr r1)
    (Hret2 : count_chars (PDict d2) = inr r2) :
  getitem r1 (codepoints "content") = getitem r2 (codepoints "content")
  <-> length s1 = length s2.
Proof.
  apply count_chars_inr in Hret1
    as (d1' & i1 & in1 & t1 & n1 & [= <-] & _ & Hin1' & Ht1 & Hn1 & ->).
  apply count_chars_inr in Hret2
    as (d2' & i2 & in2 & t2 & n2 & [= <-] & _ & Hin2' & Ht2 & Hn2 & ->).
  rewrite Hin1 in Hin1'. injection Hin1' as <-.
  rewrite Hin2 in Hin2'. injection Hin2' as <-.
  cbn [getitem] in Ht1, Ht2. rewrite Htext1 in Ht1. rewrite Htext2 in Ht2.
  injection Ht1 as <-. injection Ht2 as <-.
  cbn [len] in Hn1, Hn2. injection Hn1 as <-. injection Hn2 as <-.
  rewrite !tool_result_content. split.
  - intros H.
    set (m1 := ({[ _ := _ ]} : gmap (list Z) pyval)) in H at 1.
    set (m2 := ({[ _ := _ ]} : gmap (list Z) pyval)) in H.
    assert (Hm : m1 !! codepoints "text" = m2 !! codepoints "text")
      by congruence.
    subst m1 m2. rewrite !lookup_singleton_eq in Hm.
    assert (Hs : codepoints "Character count: " ++ str_of_nat (length s1)
                 = codepoints "Character count: " ++ str_of_nat (length s2))
      by congruence.
    apply app_inv_head in Hs. now apply str_of_nat_inj.
  - now intros ->.
Qed.

Lemma count_chars_message_tells_count_witness :
  let di1 : gmap (list Z) pyval :=
    {[ codepoints "text" := PStr (codepoints "hello") ]} in
  let di2 : gmap (list Z) pyval :=
    {[ codepoints "text" := PStr (codepoints "world") ]} in
  let d1 : gmap (list Z) pyval :=
    <[codepoints "toolUseId" := PStr (codepoints "t1")]>
      (<[codepoints "input" := PDict di1]> ∅) in
  let d2 : gmap (list Z) pyval :=
    <[codepoints "toolUseId" := PStr (codepoints "t2")]>
      (<[codepoints "input" := PDict di2]> ∅) in
  getitem (tool_result (PStr (codepoints "t1")) 5) (codepoints "content")
  = getitem (tool_result (PStr (codepoints "t2")) 5) (codepoints "content")
  <-> length (codepoints "hello") = length (codepoints "world").
Proof.
  intros di1 di2 d1 d2.
  exact (count_chars_message_tells_count d1 d2 di1 di2
           (codepoints "hello") (codepoints "world")
           (tool_result (PStr (codepoints "t1")) 5)
           (tool_result (PStr (codepoints "t2")) 5)
           eq_refl eq_refl eq_refl eq_refl eq_refl eq_refl).
Defined.

(** The tool reads nothing but [toolUseId], [input] and the [text] of the
    input: another key of the request, or of its input, whatever its value,
    does not change what the tool does. *)
Theorem count_chars_ignores_other_keys
    (d : gmap (list Z) pyval) (k : list Z) (v : pyval) :
  (k <> codepoints "toolUseId" -> k <> codepoints "input" ->
   count_chars (PDict (<[k := v]> d)) = count_chars (PDict d))
  /\ (forall di,
        k <> codepoints "text" ->
        d !! codepoints "input" = Some (PDict di) ->
        count_chars
          (PDict (<[codepoints "input" := PDict (<[k := v]> di)]> d))
        = count_chars (PDict d)).
Proof.
  split.
  - intros Hid Hin. unfold count_chars, getitem.
    now rewrite !lookup_insert_ne by congruence.
  - intros di Htext Hin. rewrite !count_chars_dict.
    rewrite lookup_insert_ne by key_ne.
    rewrite lookup_insert_eq, Hin.
    destruct (d !! codepoints "toolUseId") as [i|]; [|reflexivity].
    cbn [getitem]. now rewrite lookup_insert_ne by congruence.
Qed.

Lemma count_chars_ignores_other_keys_witness :
  let di : gmap (list Z) pyval :=
    {[ codepoints "text" := PStr (codepoints "hello") ]} in
  let d : gmap (list Z) pyval :=
    <[codepoints "toolUseId" := PStr (codepoints "t1")]>
      (<[codepoints "input" := PDict di]> ∅) in
  count_chars (PDict (<[codepoints "name" := PStr (codepoints "count_chars")]> d))
  = count_chars (PDict d)
  /\ count_chars
       (PDict (<[codepoints "input" :=
                   PDict (<[codepoints "lang" := PNone]> di)]> d))
     = count_chars (PDict d).
Proof.
  intros di d. split.
  - apply (proj1 (count_chars_ignores_other_keys d (codepoints "name")
                    (PStr (codepoints "count_chars")))); key_ne.
  - apply (proj2 (count_chars_ignores_other_keys d (codepoints "lang") PNone)
             di); [key_ne|reflexivity].
Defined.

(** ** The CSV summary *)

